(** * Weather MCP server: a shallow embedding of [weather.py]

    The handlers that [WeatherServer.setup_handlers] registers, the two
    weather methods and the options built by [WeatherServer.run], as
    functions over an explicit world (the error log and a ghost record of
    handler invocations), with Python exceptions as an error result. *)

From Stdlib Require Import Ascii.
From stdpp Require Import base strings gmap list pretty.

(** ** Python values *)

(** The values an [arguments] mapping can hold ([dict[str, Any]], decoded
    from JSON).  [None], [bool], [int] and [str] are kept apart because the
    code distinguishes them ([range], [==], formatting).  Every other value
    (a float, a list, a nested dict) is used by the code only through its
    type name and its [str()] text, so it is carried as those two strings. *)
Inductive pyval :=
| VNone
| VBool (b : bool)
| VInt (z : Z)
| VStr (s : string)
| VOther (tyname text : string).

Definition nl : string := String "010"%char "".

(** [str(v)], which is also what an f-string field [{v}] renders. *)
Definition py_str (v : pyval) : string :=
  match v with
  | VNone => "None"
  | VBool true => "True"
  | VBool false => "False"
  | VInt z => pretty z
  | VStr s => s
  | VOther _ text => text
  end.

(** [type(v).__name__]. *)
Definition py_type_name (v : pyval) : string :=
  match v with
  | VNone => "NoneType"
  | VBool _ => "bool"
  | VInt _ => "int"
  | VStr _ => "str"
  | VOther tyname _ => tyname
  end.

(** [v == s] for a string literal [s]: only an equal [str] compares equal. *)
Definition py_eq_str (v : pyval) (s : string) : bool :=
  match v with
  | VStr s' => bool_decide (s' = s)
  | _ => false
  end.

(** ** Exceptions *)

(** The instances of [Exception] that occur: the classes the code raises
    itself or triggers in the interpreter, and any other one by class name
    and text (what a handler plugged into the dispatcher may raise). *)
Inductive exn :=
| ValueError (msg : string)
| KeyError (key : string)
| TypeError (msg : string)
| OtherError (cls msg : string).

(** [str(e)].  For a [KeyError] it is the [repr] of the key, written here
    for a key without quotes, backslashes or control characters; the only
    subscript in the code is ["location"]. *)
Definition str_exn (e : exn) : string :=
  match e with
  | ValueError msg => msg
  | KeyError key => "'" +:+ key +:+ "'"
  | TypeError msg => msg
  | OtherError _ msg => msg
  end.

(** ** The world and the monad of handlers *)

(** [log] holds the records written through [logger.error], oldest first.
    [calls] is ghost state: the tool methods entered so far, by name. *)
Record world := World { log : list string; calls : list string }.

Inductive result (A : Type) :=
| Ok (a : A)
| Exc (e : exn).
Arguments Ok {A} a.
Arguments Exc {A} e.

Definition M (A : Type) : Type := world → result A * world.

Definition ret {A} (a : A) : M A := λ w, (Ok a, w).

Definition bind {A B} (m : M A) (k : A → M B) : M B :=
  λ w, match m w with
       | (Ok a, w') => k a w'
       | (Exc e, w') => (Exc e, w')
       end.

Definition raise {A} (e : exn) : M A := λ w, (Exc e, w).

(** [try: m  except Exception as e: h e] *)
Definition try_except {A} (m : M A) (h : exn → M A) : M A :=
  λ w, match m w with
       | (Ok a, w') => (Ok a, w')
       | (Exc e, w') => h e w'
       end.

Notation "'do' x <- m ; k" := (bind m (λ x, k))
  (at level 10, x name, m at level 99, k at level 200,
   format "'[v' 'do'  x  <-  m ; '/' k ']'").

Definition logger_error (msg : string) : M unit :=
  λ w, (Ok tt, World (log w ++ [msg]) (calls w)).

(** A call of a tool method: the ghost record, then the method. *)
Definition invoke {A} (tool : string) (m : M A) : M A :=
  λ w, m (World (log w) (calls w ++ [tool])).

(** [arguments[key]] *)
Definition getitem (arguments : gmap string pyval) (key : string) : M pyval :=
  match arguments !! key with
  | Some v => ret v
  | None => raise (KeyError key)
  end.

(** [arguments.get(key, dflt)] *)
Definition dict_get (arguments : gmap string pyval) (key : string)
    (dflt : pyval) : pyval :=
  match arguments !! key with
  | Some v => v
  | None => dflt
  end.

(** [range(v)] as the list it iterates over; [bool] is a subclass of [int]. *)
Definition py_range (v : pyval) : M (list Z) :=
  match v with
  | VInt z => ret (Z.of_nat <$> seq 0 (Z.to_nat z))
  | VBool b => ret (Z.of_nat <$> seq 0 (if b then 1 else 0))
  | _ => raise (TypeError ("'" +:+ py_type_name v +:+
                           "' object cannot be interpreted as an integer"))
  end.

(** ** Protocol data *)

Record TextContent := { type : string; text : string }.

(** [TextContent(type="text", text=s)] *)
Definition text_item (s : string) : TextContent := {| type := "text"; text := s |}.

Record Resource := {
  uri : string;
  res_name : string;
  res_description : string;
  mimeType : string
}.

(** One entry of ["properties"] in an [inputSchema]; an absent key of the
    Python dict is [None]. *)
Record PropertySchema := {
  p_type : string;
  p_enum : option (list string);
  p_minimum : option Z;
  p_maximum : option Z;
  p_default : option pyval;
  p_description : string
}.

Record InputSchema := {
  s_type : string;
  properties : list (string * PropertySchema);
  required : list string
}.

Record Tool := {
  name : string;
  description : string;
  inputSchema : InputSchema
}.

(** ** The handlers of [setup_handlers] *)

Definition weather_resources : list Resource :=
      [ {| uri := "weather://current";
           res_name := "Current Weather";
           res_description := "Get current weather information for a location";
           mimeType := "application/json" |};
        {| uri := "weather://forecast";
           res_name := "Weather Forecast";
           res_description := "Get weather forecast for a location";
           mimeType := "application/json" |} ].

Definition handle_list_resources : M (list Resource) := ret weather_resources.

(** The argument is [str(uri)]. *)
Definition handle_read_resource (uri : string) : M string :=
  if bool_decide (uri = "weather://current") then
    ret "Current weather data resource - use get_current_weather tool"
  else if bool_decide (uri = "weather://forecast") then
    ret "Weather forecast data resource - use get_weather_forecast tool"
  else
    raise (ValueError ("Unknown resource: " +:+ uri)).

Definition location_schema : PropertySchema :=
  {| p_type := "string"; p_enum := None; p_minimum := None; p_maximum := None;
     p_default := None;
     p_description := "The city name or coordinates (lat,lon)" |}.

Definition units_schema : PropertySchema :=
  {| p_type := "string"; p_enum := Some ["metric"; "imperial"; "kelvin"];
     p_minimum := None; p_maximum := None;
     p_default := Some (VStr "metric");
     p_description := "Temperature units" |}.

Definition days_schema : PropertySchema :=
  {| p_type := "integer"; p_enum := None;
     p_minimum := Some 1%Z; p_maximum := Some 5%Z;
     p_default := Some (VInt 3);
     p_description := "Number of forecast days" |}.

Definition current_weather_tool : Tool :=
  {| name := "get_current_weather";
     description := "Get current weather information for a specific location";
     inputSchema :=
       {| s_type := "object";
          properties := [("location", location_schema);
                         ("units", units_schema)];
          required := ["location"] |} |}.

Definition weather_forecast_tool : Tool :=
  {| name := "get_weather_forecast";
     description := "Get weather forecast for a specific location";
     inputSchema :=
       {| s_type := "object";
          properties := [("location", location_schema);
                         ("days", days_schema);
                         ("units", units_schema)];
          required := ["location"] |} |}.

Definition weather_tools : list Tool :=
  [current_weather_tool; weather_forecast_tool].

Definition handle_list_tools : M (list Tool) := ret weather_tools.

(** ** The two weather methods *)

(** The [mock_data] dict of [get_current_weather], one field per key. *)
Record MockData := {
  md_location : pyval;
  md_temperature : string;
  md_description : string;
  md_humidity : string;
  md_wind_speed : string;
  md_units : pyval
}.

(** [async with httpx.AsyncClient() as client] opens a client that the body
    never uses; it has no counterpart here. *)
Definition get_current_weather (location units : pyval) : M (list TextContent) :=
  try_except
    (let mock_data :=
       {| md_location := location;
          md_temperature := if py_eq_str units "metric" then "22°C" else "72°F";
          md_description := "Partly cloudy";
          md_humidity := "65%";
          md_wind_speed := if py_eq_str units "metric" then "10 km/h" else "6 mph";
          md_units := units |} in
     let weather_text :=
       "Current Weather for " +:+ py_str location +:+ ":" +:+ nl +:+
       "🌡️ Temperature: " +:+ md_temperature mock_data +:+ nl +:+
       "☁️ Conditions: " +:+ md_description mock_data +:+ nl +:+
       "💧 Humidity: " +:+ md_humidity mock_data +:+ nl +:+
       "💨 Wind Speed: " +:+ md_wind_speed mock_data in
     ret [ {| type := "text"; text := weather_text |} ])
    (λ e,
     do _ <- logger_error ("Error fetching weather data: " +:+ str_exn e);
     ret [ {| type := "text";
              text := "Failed to fetch weather data: " +:+ str_exn e |} ]).

(** What one turn of the loop, at index [i], appends to [forecast_text]. *)
Definition forecast_day (units : pyval) (i : Z) : string :=
  let day := "Day " +:+ pretty (i + 1)%Z in
  let temp_high := if py_eq_str units "metric" then (25 + i)%Z else (77 + i * 2)%Z in
  let temp_low := if py_eq_str units "metric" then (15 + i)%Z else (59 + i * 2)%Z in
  let temp_unit := if py_eq_str units "metric" then "°C" else "°F" in
  "📅 " +:+ day +:+ ":" +:+ nl +:+
  "   🌡️ High: " +:+ pretty temp_high +:+ temp_unit +:+
  ", Low: " +:+ pretty temp_low +:+ temp_unit +:+ nl +:+
  "   ☁️ Conditions: " +:+
  (if bool_decide (i `mod` 2 = 0)%Z then "Sunny" else "Cloudy") +:+ nl +:+
  "   🌧️ Precipitation: " +:+ pretty (10 + i * 5)%Z +:+ "%" +:+ nl +:+ nl.

Definition get_weather_forecast (location days units : pyval)
    : M (list TextContent) :=
  try_except
    (let forecast_text :=
       "Weather Forecast for " +:+ py_str location +:+
       " (" +:+ py_str days +:+ " days):" +:+ nl +:+ nl in
     do r <- py_range days;
     let forecast_text :=
       foldl (λ acc i, acc +:+ forecast_day units i) forecast_text r in
     ret [ {| type := "text"; text := forecast_text |} ])
    (λ e,
     do _ <- logger_error ("Error fetching forecast data: " +:+ str_exn e);
     ret [ {| type := "text";
              text := "Failed to fetch forecast data: " +:+ str_exn e |} ]).

(** ** The tool dispatcher *)

(** [handle_call_tool] over the two methods it calls, so that what it does
    with a method that raises can be stated for any method. *)
Section Dispatch.
Variable current_method : pyval → pyval → M (list TextContent).
Variable forecast_method : pyval → pyval → pyval → M (list TextContent).

Definition call_tool_body (name : string) (arguments : gmap string pyval)
    : M (list TextContent) :=
  if bool_decide (name = "get_current_weather") then
    do location <- getitem arguments "location";
    invoke "get_current_weather"
      (current_method location (dict_get arguments "units" (VStr "metric")))
  else if bool_decide (name = "get_weather_forecast") then
    do location <- getitem arguments "location";
    invoke "get_weather_forecast"
      (forecast_method location
         (dict_get arguments "days" (VInt 3))
         (dict_get arguments "units" (VStr "metric")))
  else
    raise (ValueError ("Unknown tool: " +:+ name)).

Definition call_tool_except (name : string) (e : exn) : M (list TextContent) :=
  do _ <- logger_error ("Error calling tool " +:+ name +:+ ": " +:+ str_exn e);
  ret [ {| type := "text"; text := "Error: " +:+ str_exn e |} ].

Definition handle_call_tool_with (name : string)
    (arguments : gmap string pyval) : M (list TextContent) :=
  try_except (call_tool_body name arguments) (call_tool_except name).
End Dispatch.

Definition handle_call_tool : string → gmap string pyval → M (list TextContent) :=
  handle_call_tool_with get_current_weather get_weather_forecast.

(** ** [WeatherServer.run] *)

Record ResourcesCapability := { subscribe : bool; res_listChanged : bool }.
Record ToolsCapability := { tools_listChanged : bool }.

(** A capability that is not passed to the constructor is [None]. *)
Record ServerCapabilities := {
  resources : option ResourcesCapability;
  tools : option ToolsCapability
}.

Record InitializationOptions := {
  server_name : string;
  server_version : string;
  capabilities : ServerCapabilities
}.

(** [run] hands the streams and these options to [Server.run] of the mcp
    package, which is taken as the parameter [server_run]. *)
Definition run {A} (server_run : InitializationOptions → M A) : M A :=
  server_run
    {| server_name := "weather-server";
       server_version := "1.0.0";
       capabilities :=
         {| resources := Some {| subscribe := false; res_listChanged := false |};
            tools := Some {| tools_listChanged := false |} |} |}.

(** ** Responses *)

(** Modelled from the spec: the Response wrapper of sections 6 and 7, which
    lives in the mcp package and not in this repository.  What a handler
    returns becomes the result of a successful Response; an exception that
    leaves a handler is caught at the boundary and becomes an error Response
    that carries its message. *)
Inductive Response (A : Type) :=
| Result (a : A)
| Error (e : exn).
Arguments Result {A} a.
Arguments Error {A} e.

Definition respond {A} (m : M A) (w : world) : Response A * world :=
  match m w with
  | (Ok a, w') => (Result a, w')
  | (Exc e, w') => (Error e, w')
  end.

Definition is_error {A} (r : Response A) : bool :=
  match r with
  | Result _ => false
  | Error _ => true
  end.

Definition list_tools := respond handle_list_tools.
Definition list_resources := respond handle_list_resources.
Definition read_resource (uri : string) := respond (handle_read_resource uri).
(** [handle_call_tool] behind the Response wrapper alone, with no validation
    of the arguments before it. *)
Definition call_tool (name : string) (arguments : gmap string pyval) :=
  respond (handle_call_tool name arguments).

(** ** Requests for the two listings *)

Inductive list_request := ListTools | ListResources.

Inductive listing :=
| ToolList (l : list Tool)
| ResourceList (l : list Resource).

Definition handle_list_request (r : list_request) : M listing :=
  match r with
  | ListTools => do l <- handle_list_tools; ret (ToolList l)
  | ListResources => do l <- handle_list_resources; ret (ResourceList l)
  end.

(** The requests of a sequence served one after the other, each in the
    world its predecessor left. *)
Fixpoint serve_lists (rs : list list_request) (w : world)
    : list (Response listing) * world :=
  match rs with
  | [] => ([], w)
  | r :: rs' =>
      let (x, w1) := respond (handle_list_request r) w in
      let (xs, w2) := serve_lists rs' w1 in
      (x :: xs, w2)
  end.

(** The registered entries in the order in which the source lists them. *)
Definition registration_order (r : list_request) : listing :=
  match r with
  | ListTools => ToolList [current_weather_tool; weather_forecast_tool]
  | ListResources => ResourceList weather_resources
  end.

(** ** Declared constraints *)

(** Whether a value meets what a property's schema declares: its type, its
    enumeration, its minimum and maximum.  [handle_call_tool] has no such
    check; the predicate is here to state what the spec says of one. *)
Definition satisfies (ps : PropertySchema) (v : pyval) : bool :=
  match v with
  | VStr s =>
      bool_decide (p_type ps = "string") &&
      match p_enum ps with
      | Some allowed => bool_decide (s ∈ allowed)
      | None => true
      end
  | VInt z =>
      bool_decide (p_type ps = "integer") &&
      match p_minimum ps with Some lo => bool_decide (lo ≤ z)%Z | None => true end &&
      match p_maximum ps with Some hi => bool_decide (z ≤ hi)%Z | None => true end
  | _ => false
  end.

(** Some property that is present violates its declared constraint. *)
Definition violates (schema : InputSchema) (arguments : gmap string pyval) : bool :=
  existsb (λ kp : string * PropertySchema,
             match arguments !! kp.1 with
             | Some v => negb (satisfies kp.2 v)
             | None => false
             end)
          (properties schema).

(** ** The Fahrenheit rendering of a forecast day *)

(** The block of the day at index [i] with its temperatures in degrees
    Fahrenheit, spelled out. *)
Definition fahrenheit_day (i : Z) : string :=
  "📅 Day " +:+ pretty (i + 1)%Z +:+ ":" +:+ nl +:+
  "   🌡️ High: " +:+ pretty (77 + i * 2)%Z +:+ "°F" +:+
  ", Low: " +:+ pretty (59 + i * 2)%Z +:+ "°F" +:+ nl +:+
  "   ☁️ Conditions: " +:+
  (if bool_decide (i `mod` 2 = 0)%Z then "Sunny" else "Cloudy") +:+ nl +:+
  "   🌧️ Precipitation: " +:+ pretty (10 + i * 5)%Z +:+ "%" +:+ nl +:+ nl.

(** ** Declared defaults *)



(** ** The validation stage of a tools/call *)

(** Modelled from the spec: the validation that section 4.5 puts between
    the lookup of a tool and the call of its handler, which runs in the mcp
    package and is not part of [weather.py].  Every required property must
    be present and the value of each present property must meet its declared
    type and constraint; properties that the schema does not declare are
    permitted.  A failure is answered with an error Response of kind
    [InvalidArguments] whose message names the offending field, and
    [handle_call_tool] is not entered.  The schemas are those that
    [handle_list_tools] returns.  A name that [handle_list_tools] does not
    list has no schema to validate against and reaches [handle_call_tool] as
    it is. *)
Section Validation.
(** The integer that a float with this [str()] text equals, if its value is
    integral ([3.0] is 3); such a float counts as an integer for a schema. *)
Variable float_integer : string → option Z.
Variable current_method : pyval → pyval → M (list TextContent).
Variable forecast_method : pyval → pyval → pyval → M (list TextContent).

Definition numeric_value (v : pyval) : option Z :=
  match v with
  | VInt z => Some z
  | VOther tyname text =>
      if bool_decide (tyname = "float") then float_integer text else None
  | _ => None
  end.

Definition type_ok (ps : PropertySchema) (v : pyval) : bool :=
  if bool_decide (p_type ps = "string") then
    match v with VStr _ => true | _ => false end
  else if bool_decide (p_type ps = "integer") then
    match numeric_value v with Some _ => true | None => false end
  else true.

Definition enum_ok (ps : PropertySchema) (v : pyval) : bool :=
  match p_enum ps with
  | None => true
  | Some allowed =>
      match v with
      | VStr s => bool_decide (s ∈ allowed)
      | _ => false
      end
  end.

Definition range_ok (ps : PropertySchema) (v : pyval) : bool :=
  match numeric_value v with
  | Some z =>
      match p_minimum ps with Some lo => bool_decide (lo ≤ z)%Z | None => true end &&
      match p_maximum ps with Some hi => bool_decide (z ≤ hi)%Z | None => true end
  | None => true
  end.

Definition conforms (ps : PropertySchema) (v : pyval) : bool :=
  type_ok ps v && enum_ok ps v && range_ok ps v.

(** The first required property that is absent. *)
Definition first_missing (schema : InputSchema) (arguments : gmap string pyval)
    : option string :=
  List.find (λ P, match arguments !! P with None => true | Some _ => false end)
            (required schema).

(** The first declared property whose value does not conform. *)
Definition first_offending (schema : InputSchema)
    (arguments : gmap string pyval) : option string :=
  match List.find (λ kp : string * PropertySchema,
                     match arguments !! kp.1 with
                     | Some v => negb (conforms kp.2 v)
                     | None => false
                     end)
                  (properties schema) with
  | Some kp => Some kp.1
  | None => None
  end.

(** The offending field, if there is one. *)
Definition validate (schema : InputSchema) (arguments : gmap string pyval)
    : option string :=
  match first_missing schema arguments with
  | Some P => Some P
  | None => first_offending schema arguments
  end.

Definition invalid_arguments (field : string) : exn :=
  OtherError "InvalidArguments" ("Invalid arguments: '" +:+ field +:+ "'").

Definition find_tool (n : string) : option Tool :=
  List.find (λ t, bool_decide (name t = n)) weather_tools.

Definition tools_call_with (n : string) (arguments : gmap string pyval)
    (w : world) : Response (list TextContent) * world :=
  match find_tool n with
  | Some t =>
      match validate (inputSchema t) arguments with
      | Some field => (Error (invalid_arguments field), w)
      | None =>
          respond (handle_call_tool_with current_method forecast_method
                     n arguments) w
      end
  | None =>
      respond (handle_call_tool_with current_method forecast_method
                 n arguments) w
  end.
End Validation.

Definition tools_call (float_integer : string → option Z) :=
  tools_call_with float_integer get_current_weather get_weather_forecast.

(** A reading of floats for arguments that hold none with an integral
    value. *)
Definition no_integral_float (text : string) : option Z := None.

(** ** Sample inputs *)

Definition w0 : world := World [] [].

Definition no_arguments : gmap string pyval := ∅.

Definition paris : gmap string pyval := {[ "location" := VStr "Paris" ]}.

(** A method that fails like a refused connection. *)
Definition refused : exn := OtherError "ConnectError" "All connection attempts failed".
Definition failing_current (location units : pyval) : M (list TextContent) :=
  raise refused.

Definition seven_days : gmap string pyval := <["days" := VInt 7]> paris.

(** ** Parts of the forecast *)

(** [isinstance(v, int)], which is what [range] accepts. *)
Definition py_is_int (v : pyval) : bool :=
  match v with
  | VInt _ | VBool _ => true
  | _ => false
  end.

(** The message of the [TypeError] that [range(days)] raises. *)
Definition range_error (days : pyval) : string :=
  "'" +:+ py_type_name days +:+ "' object cannot be interpreted as an integer".

(** The initial [forecast_text] of [get_weather_forecast]. *)
Definition forecast_header (location days : pyval) : string :=
  "Weather Forecast for " +:+ py_str location +:+
  " (" +:+ py_str days +:+ " days):" +:+ nl +:+ nl.

(** The blocks of the days at the indices 0 to [k - 1], in this order. *)
Definition day_blocks (units : pyval) (k : nat) : string :=
  foldr (λ i rest, forecast_day units i +:+ rest) "" (Z.of_nat <$> seq 0 k).

(** [temp_high], [temp_low] and [temp_unit] of the loop body. *)
Definition temp_high (units : pyval) (i : Z) : Z :=
  if py_eq_str units "metric" then (25 + i)%Z else (77 + i * 2)%Z.

Definition temp_low (units : pyval) (i : Z) : Z :=
  if py_eq_str units "metric" then (15 + i)%Z else (59 + i * 2)%Z.

Definition temp_unit (units : pyval) : string :=
  if py_eq_str units "metric" then "°C" else "°F".

(** Two argument mappings hold the same entry, or none, at each key. *)
Definition agree_on (keys : list string) (a1 a2 : gmap string pyval) : Prop :=
  ∀ k, k ∈ keys → a1 !! k = a2 !! k.

(** Tool calls served one after the other, each in the world its
    predecessor left. *)
Fixpoint serve_calls (reqs : list (string * gmap string pyval)) (w : world)
    : list (Response (list TextContent)) * world :=
  match reqs with
  | [] => ([], w)
  | (n, arguments) :: reqs' =>
      let (x, w1) := call_tool n arguments w in
      let (xs, w2) := serve_calls reqs' w1 in
      (x :: xs, w2)
  end.

Definition weekend : gmap string pyval := <["days" := VStr "two"]> paris.

(** * Properties *)

(** ** The shape of the dispatcher *)

Section DispatchFacts.
Variable cm : pyval → pyval → M (list TextContent).
Variable fm : pyval → pyval → pyval → M (list TextContent).

(** The [except] clause turns every exception of the body into one text
    item and one log record; a returned value passes through. *)
Lemma handle_call_tool_with_unfold name arguments w :
  handle_call_tool_with cm fm name arguments w =
  match call_tool_body cm fm name arguments w with
  | (Ok items, w') => (Ok items, w')
  | (Exc e, w') =>
      (Ok [text_item ("Error: " +:+ str_exn e)],
       World (log w' ++ ["Error calling tool " +:+ name +:+ ": " +:+ str_exn e])
             (calls w'))
  end.
Proof.
  unfold handle_call_tool_with, try_except.
  destruct (call_tool_body cm fm name arguments w) as [[items|e] w']; reflexivity.
Qed.

Lemma call_tool_body_unknown name arguments w :
  name ≠ "get_current_weather" → name ≠ "get_weather_forecast" →
  call_tool_body cm fm name arguments w =
  (Exc (ValueError ("Unknown tool: " +:+ name)), w).
Proof.
  intros H1 H2. unfold call_tool_body.
  rewrite !bool_decide_eq_false_2 by done. reflexivity.
Qed.

Lemma call_tool_body_no_location name arguments w :
  name = "get_current_weather" ∨ name = "get_weather_forecast" →
  arguments !! "location" = None →
  call_tool_body cm fm name arguments w = (Exc (KeyError "location"), w).
Proof.
  intros [-> | ->] Hloc; unfold call_tool_body, getitem, bind; cbn;
    rewrite Hloc; reflexivity.
Qed.

Lemma call_tool_body_current arguments location w :
  arguments !! "location" = Some location →
  call_tool_body cm fm "get_current_weather" arguments w =
  cm location (dict_get arguments "units" (VStr "metric"))
     (World (log w) (calls w ++ ["get_current_weather"])).
Proof.
  intros Hloc. unfold call_tool_body, getitem, bind, invoke; cbn.
  rewrite Hloc. reflexivity.
Qed.

Lemma call_tool_body_forecast arguments location w :
  arguments !! "location" = Some location →
  call_tool_body cm fm "get_weather_forecast" arguments w =
  fm location (dict_get arguments "days" (VInt 3))
     (dict_get arguments "units" (VStr "metric"))
     (World (log w) (calls w ++ ["get_weather_forecast"])).
Proof.
  intros Hloc. unfold call_tool_body, getitem, bind, invoke; cbn.
  rewrite Hloc. reflexivity.
Qed.

(** A key that the dispatcher does not read for the tool does not change
    what it does. *)
Lemma call_tool_body_insert_other n (arguments : gmap string pyval) k v :
  k ≠ "location" → k ≠ "units" →
  (n = "get_weather_forecast" → k ≠ "days") →
  call_tool_body cm fm n (<[k := v]> arguments) =
  call_tool_body cm fm n arguments.
Proof.
  intros Hl Hu Hd. unfold call_tool_body, getitem, dict_get.
  rewrite (lookup_insert_ne arguments k "location") by done.
  rewrite (lookup_insert_ne arguments k "units") by done.
  repeat case_bool_decide; try reflexivity.
  by rewrite (lookup_insert_ne arguments k "days") by auto.
Qed.
End DispatchFacts.

Lemma tool_names : name <$> weather_tools =
  ["get_current_weather"; "get_weather_forecast"].
Proof. reflexivity. Qed.

Lemma not_registered_tool n :
  n ∉ name <$> weather_tools →
  n ≠ "get_current_weather" ∧ n ≠ "get_weather_forecast".
Proof.
  rewrite tool_names. intros H.
  split; intros ->; apply H; repeat constructor.
Qed.

Lemma registered_tool n :
  n ∈ name <$> weather_tools →
  n = "get_current_weather" ∨ n = "get_weather_forecast".
Proof.
  rewrite tool_names, !elem_of_cons, elem_of_nil. tauto.
Qed.

Lemma required_is_location t P :
  t ∈ weather_tools → P ∈ required (inputSchema t) →
  (name t = "get_current_weather" ∨ name t = "get_weather_forecast") ∧
  P = "location".
Proof.
  unfold weather_tools. rewrite !elem_of_cons, elem_of_nil.
  intros [-> | [-> | []]]; cbn; rewrite elem_of_cons, elem_of_nil; intuition.
Qed.

(** ** Unknown tool names *)

(** C1, as the spec words it, fails: a call of the unregistered tool
    [missing] is answered with a successful Response, not with an error. *)
Lemma call_tool_unknown_not_error :
  ("missing" ∉ name <$> weather_tools) ∧
  is_error (call_tool "missing" no_arguments w0).1 = false.
Proof.
  split; [|reflexivity].
  intros H. apply registered_tool in H. destruct H; discriminate.
Qed.

(** C1 (amended): for every tool name that is not registered, whatever the
    two tool methods are, the call is answered with a successful Response
    holding the single text item "Error: Unknown tool: <name>"; one record
    is logged and no tool method is entered. *)
Theorem call_tool_unknown n arguments w :
  n ∉ name <$> weather_tools →
  (∀ cm fm,
     respond (handle_call_tool_with cm fm n arguments) w =
     (Result [text_item ("Error: Unknown tool: " +:+ n)],
      World (log w ++ ["Error calling tool " +:+ n +:+ ": Unknown tool: " +:+ n])
            (calls w))) ∧
  calls (call_tool n arguments w).2 = calls w.
Proof.
  intros Hn. apply not_registered_tool in Hn as [H1 H2].
  assert (∀ cm fm,
     respond (handle_call_tool_with cm fm n arguments) w =
     (Result [text_item ("Error: Unknown tool: " +:+ n)],
      World (log w ++ ["Error calling tool " +:+ n +:+ ": Unknown tool: " +:+ n])
            (calls w))) as Hgen.
  { intros cm fm. unfold respond.
    rewrite handle_call_tool_with_unfold, call_tool_body_unknown by done.
    reflexivity. }
  split; [exact Hgen|].
  unfold call_tool, handle_call_tool. rewrite Hgen. reflexivity.
Qed.

Lemma call_tool_unknown_witness :
  calls (call_tool "missing" paris w0).2 = calls w0.
Proof.
  apply (call_tool_unknown "missing" paris w0).
  intros H. apply registered_tool in H. destruct H; discriminate.
Defined.

(** ** A tool method that raises *)

(** C3: when the method called for a registered tool raises [e], the
    dispatcher answers with a successful Response whose single text item is
    "Error: " followed by [str(e)]; a resource read whose handler raises is
    answered with an error Response instead, as a read of an unknown uri
    shows. *)
Theorem tool_failure_is_a_result cm fm (arguments : gmap string pyval)
    location e w w' :
  arguments !! "location" = Some location →
  (cm location (dict_get arguments "units" (VStr "metric"))
      (World (log w) (calls w ++ ["get_current_weather"])) = (Exc e, w') →
   respond (handle_call_tool_with cm fm "get_current_weather" arguments) w =
   (Result [text_item ("Error: " +:+ str_exn e)],
    World (log w' ++ ["Error calling tool get_current_weather: " +:+ str_exn e])
          (calls w'))) ∧
  (fm location (dict_get arguments "days" (VInt 3))
      (dict_get arguments "units" (VStr "metric"))
      (World (log w) (calls w ++ ["get_weather_forecast"])) = (Exc e, w') →
   respond (handle_call_tool_with cm fm "get_weather_forecast" arguments) w =
   (Result [text_item ("Error: " +:+ str_exn e)],
    World (log w' ++ ["Error calling tool get_weather_forecast: " +:+ str_exn e])
          (calls w'))) ∧
  (∀ u w1 w2 e',
     handle_read_resource u w1 = (Exc e', w2) →
     read_resource u w1 = (Error e', w2)) ∧
  read_resource "weather://tomorrow" w =
  (Error (ValueError "Unknown resource: weather://tomorrow"), w).
Proof.
  intros Hloc. repeat split.
  - intros Hm. unfold respond.
    rewrite handle_call_tool_with_unfold, (call_tool_body_current _ _ _ _ _ Hloc), Hm.
    reflexivity.
  - intros Hm. unfold respond.
    rewrite handle_call_tool_with_unfold, (call_tool_body_forecast _ _ _ _ _ Hloc), Hm.
    reflexivity.
  - intros u w1 w2 e' Hr. unfold read_resource, respond. by rewrite Hr.
Qed.

Lemma tool_failure_is_a_result_witness :
  respond (handle_call_tool_with failing_current get_weather_forecast
             "get_current_weather" paris) w0 =
  (Result [text_item "Error: All connection attempts failed"],
   World ["Error calling tool get_current_weather: All connection attempts failed"]
         ["get_current_weather"]).
Proof.
  refine (proj1 (tool_failure_is_a_result failing_current get_weather_forecast
                   paris (VStr "Paris") refused w0
                   (World [] ["get_current_weather"]) _) _); reflexivity.
Defined.

(** ** Reading a resource *)

Lemma resource_uris : uri <$> weather_resources =
  ["weather://current"; "weather://forecast"].
Proof. reflexivity. Qed.

(** C4: a read of a uri that is not registered is answered with an error
    Response, the not-found error that the code raises as
    [ValueError("Unknown resource: <uri>")]; a read of a registered uri is
    answered with the text the handler returns; and whatever exception
    leaves the handler, the answer is an error Response.  The world is the
    same afterwards in each case. *)
Theorem read_resource_answers u w :
  (u ∉ uri <$> weather_resources →
     read_resource u w = (Error (ValueError ("Unknown resource: " +:+ u)), w)) ∧
  (u ∈ uri <$> weather_resources →
     ∃ txt, handle_read_resource u w = (Ok txt, w) ∧
            read_resource u w = (Result txt, w)) ∧
  (∀ e w', handle_read_resource u w = (Exc e, w') →
           read_resource u w = (Error e, w')) ∧
  (read_resource u w).2 = w.
Proof.
  rewrite resource_uris. unfold read_resource, respond, handle_read_resource.
  repeat split.
  - intros Hu.
    rewrite !bool_decide_eq_false_2; [reflexivity| |];
      intros ->; apply Hu; repeat constructor.
  - rewrite !elem_of_cons, elem_of_nil.
    intros [-> | [-> | []]]; cbn; eauto.
  - intros e w' Hr. by rewrite Hr.
  - repeat case_bool_decide; reflexivity.
Qed.

Lemma read_resource_answers_witness :
  read_resource "res://b" w0 =
  (Error (ValueError "Unknown resource: res://b"), w0).
Proof.
  refine (proj1 (read_resource_answers "res://b" w0) _).
  rewrite resource_uris, !elem_of_cons, elem_of_nil.
  intros [H | [H | []]]; discriminate H.
Defined.

(** ** The two listings *)

(** C6: every sequence of [list_tools] and [list_resources] requests is
    answered, request by request, with the same listing in registration
    order, the tools [get_current_weather], [get_weather_forecast] and the
    resources [weather://current], [weather://forecast], and leaves the
    world as it was. *)
Theorem listings_are_stable (rs : list list_request) w :
  serve_lists rs w = ((λ r, Result (registration_order r)) <$> rs, w) ∧
  list_tools w = (Result weather_tools, w) ∧
  list_resources w = (Result weather_resources, w) ∧
  name <$> weather_tools = ["get_current_weather"; "get_weather_forecast"] ∧
  uri <$> weather_resources = ["weather://current"; "weather://forecast"].
Proof.
  split; [|repeat split].
  induction rs as [|r rs IH]; [reflexivity|].
  cbn [serve_lists fmap list_fmap].
  destruct r; cbn; rewrite IH; reflexivity.
Qed.

(** ** The options of [run] *)

(** C8: there is one options value that [run] passes on, whatever the
    session loop and whatever the world: server name "weather-server",
    version "1.0.0", the tools and the resources capability both present,
    and [listChanged] of tools, [listChanged] of resources and [subscribe]
    all false. *)
Theorem run_advertises_fixed_capabilities :
  ∃ o : InitializationOptions,
    (∀ A (server_run : InitializationOptions → M A) w,
       run server_run w = server_run o w) ∧
    server_name o = "weather-server" ∧
    server_version o = "1.0.0" ∧
    tools (capabilities o) = Some {| tools_listChanged := false |} ∧
    resources (capabilities o) =
      Some {| subscribe := false; res_listChanged := false |}.
Proof.
  eexists. split; [intros A server_run w; reflexivity|].
  repeat split.
Qed.

(** ** The weather methods never raise *)

Lemma get_current_weather_returns location units w :
  ∃ items, get_current_weather location units w = (Ok items, w).
Proof. eexists. reflexivity. Qed.

Lemma get_weather_forecast_returns location days units w :
  ∃ items w', get_weather_forecast location days units w = (Ok items, w') ∧
              calls w' = calls w.
Proof.
  unfold get_weather_forecast, try_except, bind.
  destruct days; cbn; eauto.
Qed.

Lemma handle_call_tool_current (arguments : gmap string pyval) location w :
  arguments !! "location" = Some location →
  handle_call_tool "get_current_weather" arguments w =
  get_current_weather location (dict_get arguments "units" (VStr "metric"))
    (World (log w) (calls w ++ ["get_current_weather"])).
Proof.
  intros Hloc. unfold handle_call_tool.
  rewrite handle_call_tool_with_unfold, (call_tool_body_current _ _ _ _ _ Hloc).
  by destruct (get_current_weather_returns location
                 (dict_get arguments "units" (VStr "metric"))
                 (World (log w) (calls w ++ ["get_current_weather"]))) as [? ->].
Qed.

Lemma handle_call_tool_forecast (arguments : gmap string pyval) location w :
  arguments !! "location" = Some location →
  handle_call_tool "get_weather_forecast" arguments w =
  get_weather_forecast location (dict_get arguments "days" (VInt 3))
    (dict_get arguments "units" (VStr "metric"))
    (World (log w) (calls w ++ ["get_weather_forecast"])).
Proof.
  intros Hloc. unfold handle_call_tool.
  rewrite handle_call_tool_with_unfold, (call_tool_body_forecast _ _ _ _ _ Hloc).
  by destruct (get_weather_forecast_returns location
                 (dict_get arguments "days" (VInt 3))
                 (dict_get arguments "units" (VStr "metric"))
                 (World (log w) (calls w ++ ["get_weather_forecast"])))
    as (? & ? & -> & _).
Qed.

(** ** Defaults of optional properties *)








(** ** Units other than metric *)

Lemma string_app_assoc (s1 s2 s3 : string) :
  (s1 +:+ s2) +:+ s3 = s1 +:+ (s2 +:+ s3).
Proof.
  induction s1 as [|c s1 IH]; [reflexivity|].
  change (String c ((s1 +:+ s2) +:+ s3) = String c (s1 +:+ s2 +:+ s3)).
  by f_equal.
Qed.

Lemma string_app_empty_r (s : string) : s +:+ "" = s.
Proof.
  induction s as [|c s IH]; [reflexivity|].
  change (String c (s +:+ "") = String c s). by f_equal.
Qed.

(** The loop of [get_weather_forecast] appends the day blocks in order. *)
Lemma foldl_append_blocks (f : Z → string) (l : list Z) (h : string) :
  foldl (λ acc i, acc +:+ f i) h l = h +:+ foldr (λ i rest, f i +:+ rest) "" l.
Proof.
  revert h. induction l as [|i l IH]; intros h; cbn.
  - by rewrite string_app_empty_r.
  - by rewrite IH, string_app_assoc.
Qed.

Lemma not_metric units : units ≠ VStr "metric" → py_eq_str units "metric" = false.
Proof.
  intros Hne. destruct units; cbn; try reflexivity.
  apply bool_decide_eq_false_2. congruence.
Qed.

Lemma forecast_day_not_metric units i :
  units ≠ VStr "metric" → forecast_day units i = fahrenheit_day i.
Proof.
  intros Hne. unfold forecast_day. rewrite (not_metric _ Hne). reflexivity.
Qed.

Lemma fahrenheit_blocks units (l : list Z) :
  units ≠ VStr "metric" →
  foldr (λ i rest, forecast_day units i +:+ rest) "" l =
  foldr (λ i rest, fahrenheit_day i +:+ rest) "" l.
Proof.
  intros Hne. induction l as [|i l IH]; cbn [foldr]; [reflexivity|].
  by rewrite IH, (forecast_day_not_metric _ _ Hne).
Qed.

Lemma forecast_loop_not_metric units (l : list Z) (h : string) :
  units ≠ VStr "metric" →
  foldl (λ acc i, acc +:+ forecast_day units i) h l =
  foldl (λ acc i, acc +:+ forecast_day (VStr "imperial") i) h l.
Proof.
  intros Hne. revert h. induction l as [|i l IH]; intros h; cbn; [reflexivity|].
  rewrite IH. do 2 f_equal.
  by rewrite !forecast_day_not_metric.
Qed.

(** C10: for every [units] value other than the string "metric", "kelvin"
    included, [get_current_weather] reports "72°F" and "6 mph", every day
    block of [get_weather_forecast] is the Fahrenheit block, with its
    temperatures in "°F", and both
    methods return exactly what they return for "imperial": there is no
    third rendering. *)
Theorem units_other_than_metric_are_imperial location days units w :
  units ≠ VStr "metric" →
  get_current_weather location units w =
    (Ok [text_item
           ("Current Weather for " +:+ py_str location +:+ ":" +:+ nl +:+
            "🌡️ Temperature: 72°F" +:+ nl +:+
            "☁️ Conditions: Partly cloudy" +:+ nl +:+
            "💧 Humidity: 65%" +:+ nl +:+
            "💨 Wind Speed: 6 mph")], w) ∧
  (∀ n : Z,
     get_weather_forecast location (VInt n) units w =
     (Ok [text_item
            (("Weather Forecast for " +:+ py_str location +:+
              " (" +:+ pretty n +:+ " days):" +:+ nl +:+ nl) +:+
             foldr (λ i rest, fahrenheit_day i +:+ rest) ""
                   (Z.of_nat <$> seq 0 (Z.to_nat n)))], w)) ∧
  get_current_weather location units w =
    get_current_weather location (VStr "imperial") w ∧
  get_weather_forecast location days units w =
    get_weather_forecast location days (VStr "imperial") w.
Proof.
  intros Hne. split_and!.
  - unfold get_current_weather, try_except, ret; cbn.
    rewrite (not_metric _ Hne). reflexivity.
  - intros n. unfold get_weather_forecast, try_except, bind, py_range, ret.
    by rewrite foldl_append_blocks, (fahrenheit_blocks _ _ Hne).
  - unfold get_current_weather, try_except, ret; cbn.
    rewrite (not_metric _ Hne). reflexivity.
  - unfold get_weather_forecast, try_except, bind, py_range, ret.
    destruct days; try reflexivity;
      by rewrite (forecast_loop_not_metric _ _ _ Hne).
Qed.

Lemma units_other_than_metric_are_imperial_witness :
  get_current_weather (VStr "Paris") (VStr "kelvin") w0 =
  get_current_weather (VStr "Paris") (VStr "imperial") w0.
Proof.
  refine (proj1 (proj2 (proj2
            (units_other_than_metric_are_imperial (VStr "Paris") (VInt 2)
               (VStr "kelvin") w0 _)))).
  discriminate.
Defined.

(** * Further properties of the code *)

(** ** The forecast text *)

Lemma get_weather_forecast_int location n units w :
  get_weather_forecast location (VInt n) units w =
  (Ok [text_item (forecast_header location (VInt n) +:+
                  day_blocks units (Z.to_nat n))], w).
Proof.
  unfold get_weather_forecast, try_except, bind, py_range, ret.
  by rewrite foldl_append_blocks.
Qed.

Lemma get_weather_forecast_not_int location days units w :
  py_is_int days = false →
  get_weather_forecast location days units w =
  (Ok [text_item ("Failed to fetch forecast data: " +:+ range_error days)],
   World (log w ++ ["Error fetching forecast data: " +:+ range_error days])
         (calls w)).
Proof. intros Hd. destruct days; try discriminate Hd; reflexivity. Qed.

Lemma day_blocks_S units k :
  day_blocks units (S k) = day_blocks units k +:+ forecast_day units (Z.of_nat k).
Proof.
  unfold day_blocks. rewrite seq_S, fmap_app. cbn [fmap list_fmap plus].
  generalize (Z.of_nat <$> seq 0 k). intros l.
  induction l as [|i l IH]; cbn [foldr app].
  - by rewrite string_app_empty_r.
  - by rewrite IH, string_app_assoc.
Qed.

(** X1: when [days] is neither an [int] nor a [bool], the forecast method
    does not raise: it logs one record and returns the single item "Failed
    to fetch forecast data: '<type>' object cannot be interpreted as an
    integer".  Through the dispatcher the same item is the content of a
    successful Response, and the dispatcher's own "Error: " clause is not
    reached. *)
Theorem forecast_days_not_an_integer location days units
    (arguments : gmap string pyval) w :
  py_is_int days = false →
  get_weather_forecast location days units w =
    (Ok [text_item ("Failed to fetch forecast data: " +:+ range_error days)],
     World (log w ++ ["Error fetching forecast data: " +:+ range_error days])
           (calls w)) ∧
  (arguments !! "location" = Some location →
   dict_get arguments "days" (VInt 3) = days →
   call_tool "get_weather_forecast" arguments w =
     (Result [text_item ("Failed to fetch forecast data: " +:+ range_error days)],
      World (log w ++ ["Error fetching forecast data: " +:+ range_error days])
            (calls w ++ ["get_weather_forecast"]))).
Proof.
  intros Hd. split; [by apply get_weather_forecast_not_int|].
  intros Hloc Hdays. unfold call_tool, respond.
  rewrite (handle_call_tool_forecast _ _ _ Hloc), Hdays.
  by rewrite get_weather_forecast_not_int.
Qed.

Lemma forecast_days_not_an_integer_witness :
  call_tool "get_weather_forecast" weekend w0 =
  (Result [text_item
     "Failed to fetch forecast data: 'str' object cannot be interpreted as an integer"],
   World ["Error fetching forecast data: 'str' object cannot be interpreted as an integer"]
         ["get_weather_forecast"]).
Proof.
  refine (proj2 (forecast_days_not_an_integer (VStr "Paris") (VStr "two")
                   (VStr "metric") weekend w0 _) _ _); reflexivity.
Defined.

(** X2: a forecast for zero or a negative number of days is the header
    alone, with the number as it was passed, and no day block; nothing is
    logged. *)
Theorem forecast_without_days location n units w :
  (n ≤ 0)%Z →
  get_weather_forecast location (VInt n) units w =
  (Ok [text_item ("Weather Forecast for " +:+ py_str location +:+
                  " (" +:+ pretty n +:+ " days):" +:+ nl +:+ nl)], w).
Proof.
  intros Hn. rewrite get_weather_forecast_int.
  replace (Z.to_nat n) with 0%nat by lia.
  unfold day_blocks. cbn [seq fmap list_fmap foldr].
  by rewrite string_app_empty_r.
Qed.

Lemma forecast_without_days_witness :
  get_weather_forecast (VStr "Paris") (VInt (-2)) (VStr "metric") w0 =
  (Ok [text_item ("Weather Forecast for Paris (-2 days):" +:+ nl +:+ nl)], w0).
Proof.
  apply (forecast_without_days (VStr "Paris") (-2) (VStr "metric") w0). lia.
Defined.

(** X3: for [n >= 0], the forecast for [n + 1] days is the forecast for
    [n] days with the new day count in the header and the block of the day
    at index [n] appended after the same [n] blocks. *)
Theorem forecast_one_more_day location n units w :
  (0 ≤ n)%Z →
  get_weather_forecast location (VInt n) units w =
    (Ok [text_item (forecast_header location (VInt n) +:+
                    day_blocks units (Z.to_nat n))], w) ∧
  get_weather_forecast location (VInt (n + 1)) units w =
    (Ok [text_item (forecast_header location (VInt (n + 1)) +:+
                    day_blocks units (Z.to_nat n) +:+ forecast_day units n)], w).
Proof.
  intros Hn. split; [apply get_weather_forecast_int|].
  rewrite get_weather_forecast_int.
  replace (Z.to_nat (n + 1)) with (S (Z.to_nat n)) by lia.
  rewrite day_blocks_S. by rewrite Z2Nat.id.
Qed.

Lemma forecast_one_more_day_witness :
  get_weather_forecast (VStr "Paris") (VInt (2 + 1)) (VStr "metric") w0 =
  (Ok [text_item (forecast_header (VStr "Paris") (VInt (2 + 1)) +:+
                  day_blocks (VStr "metric") (Z.to_nat 2) +:+
                  forecast_day (VStr "metric") 2)], w0).
Proof.
  refine (proj2 (forecast_one_more_day (VStr "Paris") 2 (VStr "metric") w0 _)).
  lia.
Defined.

(** ** What one tool call does to the world *)

Lemma get_weather_forecast_bool location b units w :
  get_weather_forecast location (VBool b) units w =
  (Ok [text_item (forecast_header location (VBool b) +:+
                  day_blocks units (if b then 1 else 0))], w).
Proof.
  unfold get_weather_forecast, try_except, bind, py_range, ret.
  by rewrite foldl_append_blocks.
Qed.

Lemma get_weather_forecast_is_int location days units w :
  py_is_int days = true →
  ∃ s, get_weather_forecast location days units w = (Ok [text_item s], w).
Proof.
  intros Hd. destruct days; try discriminate Hd.
  - eexists. apply get_weather_forecast_bool.
  - eexists. apply get_weather_forecast_int.
Qed.

Lemma get_current_weather_item location units w :
  ∃ s, get_current_weather location units w = (Ok [text_item s], w).
Proof. eexists. reflexivity. Qed.

Lemma call_tool_unknown_name n (arguments : gmap string pyval) w :
  n ≠ "get_current_weather" → n ≠ "get_weather_forecast" →
  call_tool n arguments w =
  (Result [text_item ("Error: Unknown tool: " +:+ n)],
   World (log w ++ ["Error calling tool " +:+ n +:+ ": Unknown tool: " +:+ n])
         (calls w)).
Proof.
  intros H1 H2. unfold call_tool, respond, handle_call_tool.
  by rewrite handle_call_tool_with_unfold, call_tool_body_unknown.
Qed.

Lemma call_tool_no_location n (arguments : gmap string pyval) w :
  n = "get_current_weather" ∨ n = "get_weather_forecast" →
  arguments !! "location" = None →
  call_tool n arguments w =
  (Result [text_item "Error: 'location'"],
   World (log w ++ ["Error calling tool " +:+ n +:+ ": 'location'"]) (calls w)).
Proof.
  intros Hn Hloc. unfold call_tool, respond, handle_call_tool.
  by rewrite handle_call_tool_with_unfold, call_tool_body_no_location.
Qed.

Lemma snoc_ne {A} (l : list A) (x : A) : l ++ [x] ≠ l.
Proof.
  intros H. apply (f_equal length) in H.
  rewrite length_app in H. cbn in H. lia.
Qed.

Lemma call_tool_outcome n (arguments : gmap string pyval) w :
  ∃ s l c,
    call_tool n arguments w =
      (Result [text_item s], World (log w ++ l) (calls w ++ c)) ∧
    (length l ≤ 1)%nat ∧ (length c ≤ 1)%nat.
Proof.
  destruct (decide (n = "get_current_weather")) as [-> | Hc].
  { destruct (arguments !! "location") as [location|] eqn:Hloc.
    - destruct (get_current_weather_item location
                  (dict_get arguments "units" (VStr "metric"))
                  (World (log w) (calls w ++ ["get_current_weather"]))) as [s Hs].
      exists s, [], ["get_current_weather"].
      unfold call_tool, respond.
      rewrite (handle_call_tool_current _ _ _ Hloc), Hs, app_nil_r. cbn. auto.
    - eexists _, [_], []. rewrite call_tool_no_location, app_nil_r by auto.
      cbn. auto. }
  destruct (decide (n = "get_weather_forecast")) as [-> | Hf].
  { destruct (arguments !! "location") as [location|] eqn:Hloc.
    - destruct (py_is_int (dict_get arguments "days" (VInt 3))) eqn:Hd.
      + destruct (get_weather_forecast_is_int location _
                    (dict_get arguments "units" (VStr "metric"))
                    (World (log w) (calls w ++ ["get_weather_forecast"])) Hd)
          as [s Hs].
        exists s, [], ["get_weather_forecast"].
        unfold call_tool, respond.
        rewrite (handle_call_tool_forecast _ _ _ Hloc), Hs, app_nil_r. cbn. auto.
      + eexists _, [_], [_]. unfold call_tool, respond.
        rewrite (handle_call_tool_forecast _ _ _ Hloc).
        rewrite (get_weather_forecast_not_int _ _ _ _ Hd). cbn. auto.
    - eexists _, [_], []. rewrite call_tool_no_location, app_nil_r by auto.
      cbn. auto. }
  eexists _, [_], []. rewrite call_tool_unknown_name, app_nil_r by done.
  cbn. auto.
Qed.

(** X4: every tool call, whatever the name and the arguments, is answered
    with a successful Response that holds exactly one text item; it appends
    at most one record to the log and enters at most one tool method, and it
    removes or changes nothing that was recorded before. *)
Theorem call_tool_one_item_bounded_effects n (arguments : gmap string pyval) w :
  is_error (call_tool n arguments w).1 = false ∧
  ∃ s l c,
    call_tool n arguments w =
      (Result [text_item s], World (log w ++ l) (calls w ++ c)) ∧
    (length l ≤ 1)%nat ∧ (length c ≤ 1)%nat.
Proof.
  destruct (call_tool_outcome n arguments w) as (s & l & c & Heq & Hl & Hc).
  split.
  - by rewrite Heq.
  - exists s, l, c. auto.
Qed.

(** X5: a tool call leaves the error log as it was exactly when the tool is
    registered, [location] is present and, for the forecast, the [days]
    value in effect is an [int] or a [bool]; in every other case it logs. *)
Theorem call_tool_log_untouched_iff n (arguments : gmap string pyval) w :
  log (call_tool n arguments w).2 = log w ↔
  n ∈ name <$> weather_tools ∧
  is_Some (arguments !! "location") ∧
  (n = "get_weather_forecast" →
   py_is_int (dict_get arguments "days" (VInt 3)) = true).
Proof.
  split.
  - intros Hlog.
    destruct (decide (n = "get_current_weather")) as [-> | Hc].
    { destruct (arguments !! "location") as [location|] eqn:Hloc.
      - split_and!; [apply list_elem_of_here | eauto | discriminate].
      - rewrite call_tool_no_location in Hlog by auto.
        by apply snoc_ne in Hlog. }
    destruct (decide (n = "get_weather_forecast")) as [-> | Hf].
    { destruct (arguments !! "location") as [location|] eqn:Hloc.
      - split_and!; [apply list_elem_of_further, list_elem_of_here | eauto |].
        intros _.
        destruct (py_is_int (dict_get arguments "days" (VInt 3))) eqn:Hd; [done|].
        unfold call_tool, respond in Hlog.
        rewrite (handle_call_tool_forecast _ _ _ Hloc) in Hlog.
        rewrite (get_weather_forecast_not_int _ _ _ _ Hd) in Hlog.
        by apply snoc_ne in Hlog.
      - rewrite call_tool_no_location in Hlog by auto.
        by apply snoc_ne in Hlog. }
    rewrite call_tool_unknown_name in Hlog by done.
    by apply snoc_ne in Hlog.
  - intros (Hn & [location Hloc] & Hd).
    apply registered_tool in Hn as [-> | ->]; unfold call_tool, respond.
    + rewrite (handle_call_tool_current _ _ _ Hloc).
      by destruct (get_current_weather_item location
                     (dict_get arguments "units" (VStr "metric"))
                     (World (log w) (calls w ++ ["get_current_weather"])))
        as [s ->].
    + rewrite (handle_call_tool_forecast _ _ _ Hloc).
      by destruct (get_weather_forecast_is_int location _
                     (dict_get arguments "units" (VStr "metric"))
                     (World (log w) (calls w ++ ["get_weather_forecast"]))
                     (Hd eq_refl)) as [s ->].
Qed.

Lemma call_tool_log_untouched_iff_witness :
  log (call_tool "get_current_weather" paris w0).2 = log w0.
Proof.
  apply (proj2 (call_tool_log_untouched_iff "get_current_weather" paris w0)).
  split_and!.
  - apply list_elem_of_here.
  - by eexists.
  - discriminate.
Defined.

(** ** The dispatcher and the declared properties *)

(** X6: whatever the tool methods are, a call of a registered tool depends
    on its arguments only through the properties that the tool's schema
    declares: two mappings that agree on them give the same outcome and the
    same world. *)
Theorem call_tool_reads_declared_properties cm fm t
    (a1 a2 : gmap string pyval) w :
  t ∈ weather_tools →
  agree_on (fst <$> properties (inputSchema t)) a1 a2 →
  handle_call_tool_with cm fm (name t) a1 w =
  handle_call_tool_with cm fm (name t) a2 w.
Proof.
  unfold weather_tools. rewrite !elem_of_cons, elem_of_nil.
  intros [-> | [-> | []]] Hagree;
    unfold handle_call_tool_with, call_tool_body, getitem, dict_get; cbn.
  - rewrite (Hagree "location"), (Hagree "units"); [done|..];
      cbn; rewrite !elem_of_cons; auto.
  - rewrite (Hagree "location"), (Hagree "units"), (Hagree "days"); [done|..];
      cbn; rewrite !elem_of_cons; auto.
Qed.

Lemma call_tool_reads_declared_properties_witness :
  handle_call_tool_with get_current_weather get_weather_forecast
    "get_current_weather" (<["days" := VInt 7]> paris) w0 =
  handle_call_tool_with get_current_weather get_weather_forecast
    "get_current_weather" paris w0.
Proof.
  refine (call_tool_reads_declared_properties _ _ current_weather_tool
            (<["days" := VInt 7]> paris) paris w0 _ _).
  - apply list_elem_of_here.
  - intros k Hk. cbn in Hk. rewrite !elem_of_cons, elem_of_nil in Hk.
    destruct Hk as [-> | [-> | []]]; reflexivity.
Defined.

(** X7: for a registered tool, putting the declared default in the place
    of an omitted property never turns arguments that violate no declared
    constraint into arguments that violate one. *)
Theorem defaults_keep_arguments_valid t p ps d (arguments : gmap string pyval) :
  t ∈ weather_tools →
  (p, ps) ∈ properties (inputSchema t) →
  p_default ps = Some d →
  arguments !! p = None →
  violates (inputSchema t) arguments = false →
  violates (inputSchema t) (<[p := d]> arguments) = false.
Proof.
  unfold weather_tools. rewrite !elem_of_cons, elem_of_nil.
  intros Ht Hp Hd Hnone.
  destruct Ht as [-> | [-> | []]]; cbn in Hp;
    rewrite !elem_of_cons, elem_of_nil in Hp;
    destruct Hp as [Hp | Hp]; try destruct Hp as [Hp | Hp];
    try destruct Hp as [Hp | Hp]; try done;
    injection Hp as -> ->; cbn in Hd; try discriminate;
    injection Hd as <-;
    unfold violates; cbn [existsb properties inputSchema current_weather_tool
                            weather_forecast_tool fst snd];
    rewrite !orb_false_iff; intros Hv; destruct_and!;
    rewrite ?lookup_insert_eq, ?lookup_insert_ne by done;
    split_and!; done.
Qed.

Lemma defaults_keep_arguments_valid_witness :
  violates (inputSchema weather_forecast_tool) (<["days" := VInt 3]> paris) = false.
Proof.
  refine (defaults_keep_arguments_valid weather_forecast_tool "days" days_schema
            (VInt 3) paris _ _ _ _ _).
  - apply list_elem_of_further, list_elem_of_here.
  - apply list_elem_of_further, list_elem_of_here.
  - reflexivity.
  - reflexivity.
  - reflexivity.
Defined.

(** ** The mock temperatures *)

(** X9: each day block prints [temp_high] and [temp_low] with [temp_unit];
    the high is above the low by 10 in metric and by 18 otherwise, on every
    day; and the figures printed for the other units are the exact
    Fahrenheit conversion of the metric ones (9 C + 160 = 5 F) on the first
    day only. *)
Theorem forecast_temperatures units i :
  forecast_day units i =
    "📅 Day " +:+ pretty (i + 1)%Z +:+ ":" +:+ nl +:+
    "   🌡️ High: " +:+ pretty (temp_high units i) +:+ temp_unit units +:+
    ", Low: " +:+ pretty (temp_low units i) +:+ temp_unit units +:+ nl +:+
    "   ☁️ Conditions: " +:+
    (if bool_decide (i `mod` 2 = 0)%Z then "Sunny" else "Cloudy") +:+ nl +:+
    "   🌧️ Precipitation: " +:+ pretty (10 + i * 5)%Z +:+ "%" +:+ nl +:+ nl ∧
  (temp_high units i - temp_low units i =
     if py_eq_str units "metric" then 10 else 18)%Z ∧
  ((9 * temp_high (VStr "metric") i + 160 =
    5 * temp_high (VStr "imperial") i)%Z ↔ i = 0%Z) ∧
  ((9 * temp_low (VStr "metric") i + 160 =
    5 * temp_low (VStr "imperial") i)%Z ↔ i = 0%Z).
Proof.
  split_and!.
  - reflexivity.
  - unfold temp_high, temp_low. destruct (py_eq_str units "metric"); lia.
  - unfold temp_high.
    change (py_eq_str (VStr "metric") "metric") with true.
    change (py_eq_str (VStr "imperial") "metric") with false.
    cbv iota. lia.
  - unfold temp_low.
    change (py_eq_str (VStr "metric") "metric") with true.
    change (py_eq_str (VStr "imperial") "metric") with false.
    cbv iota. lia.
Qed.

(** ** Tool calls in sequence *)

(** X10: a sequence of tool calls, whatever the names and the arguments, is
    answered call by call: there are as many Responses as calls, each one
    successful with exactly one text item, and the whole sequence appends at
    most one log record and one method entry per call to what the world
    held before. *)
Theorem tool_calls_in_sequence (reqs : list (string * gmap string pyval)) w :
  length (serve_calls reqs w).1 = length reqs ∧
  Forall (λ r, ∃ s, r = Result [text_item s]) (serve_calls reqs w).1 ∧
  ∃ l c, (serve_calls reqs w).2 = World (log w ++ l) (calls w ++ c) ∧
         (length l ≤ length reqs)%nat ∧ (length c ≤ length reqs)%nat.
Proof.
  revert w. induction reqs as [|[n arguments] reqs IH]; intros w.
  - cbn. split_and!; [done | constructor |].
    exists [], []. rewrite !app_nil_r. by destruct w.
  - cbn [serve_calls].
    destruct (call_tool_outcome n arguments w) as (s & l & c & Heq & Hl & Hc).
    rewrite Heq.
    destruct (IH (World (log w ++ l) (calls w ++ c)))
      as (Hlen & Hall & l' & c' & Hw & Hl' & Hc').
    destruct (serve_calls reqs (World (log w ++ l) (calls w ++ c)))
      as [xs w2] eqn:Hs.
    cbn [fst snd] in *. split_and!.
    + cbn. by rewrite Hlen.
    + constructor; [by exists s | done].
    + exists (l ++ l'), (c ++ c'). rewrite Hw. cbn [log calls].
      rewrite !app_assoc, !length_app. cbn [length]. split_and!; [done | lia..].
Qed.

(** * The validated tools/call *)

Lemma find_tool_listed t : t ∈ weather_tools → find_tool (name t) = Some t.
Proof.
  unfold weather_tools. rewrite !elem_of_cons, elem_of_nil.
  intros [-> | [-> | []]]; reflexivity.
Qed.

Lemma find_tool_unlisted n : n ∉ name <$> weather_tools → find_tool n = None.
Proof.
  intros Hn. apply not_registered_tool in Hn as [H1 H2].
  unfold find_tool, weather_tools. cbn.
  by rewrite !bool_decide_eq_false_2 by done.
Qed.

Lemma find_ext {A} (f g : A → bool) (l : list A) :
  (∀ x, x ∈ l → f x = g x) → List.find f l = List.find g l.
Proof.
  induction l as [|a l IH]; intros Hfg; [reflexivity|]. cbn.
  rewrite (Hfg a) by apply list_elem_of_here.
  destruct (g a); [reflexivity|].
  apply IH. intros x Hx. apply Hfg. by apply list_elem_of_further.
Qed.

(** A name that is not listed is not validated: the answer is that of
    [handle_call_tool]. *)
Lemma tools_call_unlisted fi cm fm n (arguments : gmap string pyval) w :
  n ∉ name <$> weather_tools →
  tools_call_with fi cm fm n arguments w =
  respond (handle_call_tool_with cm fm n arguments) w.
Proof. intros Hn. unfold tools_call_with. by rewrite find_tool_unlisted. Qed.

Lemma validate_missing fi t P (arguments : gmap string pyval) :
  t ∈ weather_tools → P ∈ required (inputSchema t) → arguments !! P = None →
  validate fi (inputSchema t) arguments = Some P.
Proof.
  intros Ht HP Hnone.
  destruct (required_is_location t P Ht HP) as [_ ->].
  unfold weather_tools in Ht. rewrite !elem_of_cons, elem_of_nil in Ht.
  destruct Ht as [-> | [-> | []]]; unfold validate, first_missing; cbn;
    by rewrite Hnone.
Qed.

(** Validation finds a field whenever some present property does not
    conform, and the field it finds is one that is missing or does not
    conform. *)
Lemma validate_offending fi schema (arguments : gmap string pyval) p ps v :
  (p, ps) ∈ properties schema → arguments !! p = Some v →
  conforms fi ps v = false →
  ∃ field, validate fi schema arguments = Some field ∧
    (field ∈ required schema ∧ arguments !! field = None ∨
     ∃ ps' v', (field, ps') ∈ properties schema ∧
               arguments !! field = Some v' ∧ conforms fi ps' v' = false).
Proof.
  intros Hp Hv Hc. unfold validate, first_missing, first_offending.
  destruct (List.find _ (required schema)) as [P|] eqn:Hreq.
  { apply find_some in Hreq as [HP Hnone]. exists P. split; [done|]. left.
    split; [by apply list_elem_of_In|]. by destruct (arguments !! P). }
  destruct (List.find _ (properties schema)) as [[q ps']|] eqn:Hoff.
  - apply find_some in Hoff as [Hq Hbad]. cbn [fst snd] in Hbad.
    exists q. split; [done|]. right.
    destruct (arguments !! q) as [v'|] eqn:Hq'; [|discriminate].
    exists ps', v'. split_and!; [by apply list_elem_of_In | done |].
    by apply negb_true_iff.
  - exfalso.
    assert (In (p, ps) (properties schema)) as Hin by by apply list_elem_of_In.
    apply (find_none _ _ Hoff) in Hin.
    cbn [fst snd] in Hin. rewrite Hv, Hc in Hin. discriminate.
Qed.

Lemma validate_insert_other fi t (arguments : gmap string pyval) k v :
  t ∈ weather_tools →
  k ∉ (fst <$> properties (inputSchema t)) →
  validate fi (inputSchema t) (<[k := v]> arguments) =
  validate fi (inputSchema t) arguments.
Proof.
  intros Ht Hk. unfold validate, first_missing, first_offending.
  assert (∀ q, q ∈ (fst <$> properties (inputSchema t)) →
               <[k := v]> arguments !! q = arguments !! q) as Hlook.
  { intros q Hq. apply lookup_insert_ne. intros ->. by apply Hk. }
  rewrite (find_ext _ (λ P, match arguments !! P with
                            | None => true | Some _ => false end)).
  2:{ intros P HP. rewrite Hlook; [done|].
      destruct (required_is_location t P Ht HP) as [_ ->].
      unfold weather_tools in Ht. rewrite !elem_of_cons, elem_of_nil in Ht.
      destruct Ht as [-> | [-> | []]]; apply list_elem_of_here. }
  rewrite (find_ext _ (λ kp : string * PropertySchema,
                         match arguments !! kp.1 with
                         | Some v0 => negb (conforms fi kp.2 v0)
                         | None => false
                         end) (properties (inputSchema t))).
  2:{ intros [q ps] Hq. cbn [fst snd]. rewrite Hlook; [done|].
      apply list_elem_of_fmap. by exists (q, ps). }
  reflexivity.
Qed.

(** ** A required property that is missing *)

(** C2: for every registered tool and every property P that its schema
    requires, a tools/call whose arguments omit P is answered by the
    validation stage with an error Response of kind InvalidArguments whose
    message names P; the world is as it was, so neither [handle_call_tool]
    nor a tool method has been entered, whatever the methods are.
    [handle_call_tool] itself, given such arguments, also names P, in the
    text item "Error: 'P'", and enters no tool method. *)
Theorem tools_call_missing_required fi cm fm t P
    (arguments : gmap string pyval) w :
  t ∈ weather_tools →
  P ∈ required (inputSchema t) →
  arguments !! P = None →
  tools_call_with fi cm fm (name t) arguments w =
    (Error (invalid_arguments P), w) ∧
  str_exn (invalid_arguments P) = "Invalid arguments: '" +:+ P +:+ "'" ∧
  handle_call_tool_with cm fm (name t) arguments w =
    (Ok [text_item ("Error: '" +:+ P +:+ "'")],
     World (log w ++ ["Error calling tool " +:+ name t +:+ ": '" +:+ P +:+ "'"])
           (calls w)).
Proof.
  intros Ht HP Hnone. split_and!.
  - unfold tools_call_with.
    by rewrite (find_tool_listed _ Ht), (validate_missing _ _ _ _ Ht HP Hnone).
  - reflexivity.
  - destruct (required_is_location t P Ht HP) as [Hname ->].
    by rewrite handle_call_tool_with_unfold, call_tool_body_no_location.
Qed.

Lemma tools_call_missing_required_witness :
  tools_call no_integral_float "get_weather_forecast" no_arguments w0 =
  (Error (invalid_arguments "location"), w0).
Proof.
  refine (proj1 (tools_call_missing_required no_integral_float
                   get_current_weather get_weather_forecast
                   weather_forecast_tool "location" no_arguments w0 _ _ _)).
  - apply list_elem_of_further, list_elem_of_here.
  - apply list_elem_of_here.
  - reflexivity.
Defined.

(** ** A property that violates its declared constraint *)

(** C5: for every registered tool, a tools/call in which some present
    property does not conform to its declared type, enumeration, minimum or
    maximum is answered by the validation stage with an error Response of
    kind InvalidArguments that names an offending field, which is that
    property when nothing else is wrong with the arguments; the world is as
    it was, so no handler has been entered, whatever the methods are.
    A property that the schema does not declare changes nothing: the call
    is answered as it is without it. *)
Theorem tools_call_rejects_violation fi cm fm t (arguments : gmap string pyval) w :
  t ∈ weather_tools →
  (∀ p ps v,
     (p, ps) ∈ properties (inputSchema t) →
     arguments !! p = Some v →
     conforms fi ps v = false →
     ∃ field,
       tools_call_with fi cm fm (name t) arguments w =
         (Error (invalid_arguments field), w) ∧
       str_exn (invalid_arguments field) =
         "Invalid arguments: '" +:+ field +:+ "'" ∧
       (field ∈ required (inputSchema t) ∧ arguments !! field = None ∨
        ∃ ps' v', (field, ps') ∈ properties (inputSchema t) ∧
                  arguments !! field = Some v' ∧ conforms fi ps' v' = false) ∧
       ((∀ P, P ∈ required (inputSchema t) → is_Some (arguments !! P)) →
        (∀ q ps' v', (q, ps') ∈ properties (inputSchema t) → q ≠ p →
                     arguments !! q = Some v' → conforms fi ps' v' = true) →
        field = p)) ∧
  (∀ k v, k ∉ (fst <$> properties (inputSchema t)) →
     tools_call_with fi cm fm (name t) (<[k := v]> arguments) w =
     tools_call_with fi cm fm (name t) arguments w).
Proof.
  intros Ht. split.
  - intros p ps v Hp Hv Hc.
    destruct (validate_offending fi _ _ _ _ _ Hp Hv Hc) as (field & Hval & Hwhy).
    exists field. split_and!.
    + unfold tools_call_with. by rewrite (find_tool_listed _ Ht), Hval.
    + reflexivity.
    + exact Hwhy.
    + intros Hreq Hothers.
      destruct Hwhy as [[HP Hnone] | (ps' & v' & Hq & Hv' & Hc')].
      * destruct (Hreq _ HP) as [x Hx]. rewrite Hx in Hnone. discriminate.
      * destruct (decide (field = p)) as [-> | Hne]; [reflexivity|].
        rewrite (Hothers _ _ _ Hq Hne Hv') in Hc'. discriminate.
  - intros k v Hk. unfold tools_call_with.
    rewrite (find_tool_listed _ Ht), (validate_insert_other _ _ _ _ _ Ht Hk).
    destruct (validate fi (inputSchema t) arguments); [reflexivity|].
    unfold respond, handle_call_tool_with.
    rewrite call_tool_body_insert_other; [done|..];
      unfold weather_tools in Ht; rewrite !elem_of_cons, elem_of_nil in Ht;
      destruct Ht as [-> | [-> | []]]; cbn in Hk |- *;
      rewrite !not_elem_of_cons in Hk; try tauto; discriminate.
Qed.

Lemma tools_call_rejects_violation_witness :
  ∃ field,
    tools_call no_integral_float "get_weather_forecast" seven_days w0 =
      (Error (invalid_arguments field), w0) ∧
    str_exn (invalid_arguments field) = "Invalid arguments: '" +:+ field +:+ "'" ∧
    (field ∈ required (inputSchema weather_forecast_tool) ∧
       seven_days !! field = None ∨
     ∃ ps' v', (field, ps') ∈ properties (inputSchema weather_forecast_tool) ∧
               seven_days !! field = Some v' ∧
               conforms no_integral_float ps' v' = false) ∧
    ((∀ P, P ∈ required (inputSchema weather_forecast_tool) →
           is_Some (seven_days !! P)) →
     (∀ q ps' v', (q, ps') ∈ properties (inputSchema weather_forecast_tool) →
                  q ≠ "days" → seven_days !! q = Some v' →
                  conforms no_integral_float ps' v' = true) →
     field = "days").
Proof.
  refine (proj1 (tools_call_rejects_violation no_integral_float
                   get_current_weather get_weather_forecast
                   weather_forecast_tool seven_days w0 _)
            "days" days_schema (VInt 7) _ _ _).
  - apply list_elem_of_further, list_elem_of_here.
  - apply list_elem_of_further, list_elem_of_here.
  - reflexivity.
  - reflexivity.
Defined.

(** * Failures of a tool call *)

(** C9, as the spec words it, fails: with [days] the string "two" the loop
    of the forecast method fails on [range], a handler error, and the item
    that [handle_call_tool] returns starts with "Failed to fetch forecast
    data: ", not with "Error: ". *)
Lemma handle_call_tool_failure_without_error_prefix :
  py_range (VStr "two") w0 =
    (Exc (TypeError "'str' object cannot be interpreted as an integer"), w0) ∧
  handle_call_tool "get_weather_forecast" weekend w0 =
    (Ok [text_item
       "Failed to fetch forecast data: 'str' object cannot be interpreted as an integer"],
     World ["Error fetching forecast data: 'str' object cannot be interpreted as an integer"]
           ["get_weather_forecast"]) ∧
  String.prefix "Error: "
    "Failed to fetch forecast data: 'str' object cannot be interpreted as an integer"
  = false.
Proof. split_and!; reflexivity. Qed.

(** C9 (amended): [handle_call_tool] returns a list of text items for every
    name and every arguments mapping and never lets an exception out,
    whatever the tool methods are; with the two weather methods the list is
    always a single item.  When the name is unknown, when [location] is
    missing, and when an exception leaves the called method, the list is the
    single item "Error: " followed by [str(e)].  A failure that the forecast
    method catches itself, [days] not being an integer, comes back as that
    method's own single item, "Failed to fetch forecast data: " followed by
    the description. *)
Theorem handle_call_tool_total cm fm n (arguments : gmap string pyval) w :
  (∃ items w', handle_call_tool_with cm fm n arguments w = (Ok items, w')) ∧
  (∃ s w', handle_call_tool n arguments w = (Ok [text_item s], w')) ∧
  (∀ e w',
     call_tool_body cm fm n arguments w = (Exc e, w') →
     handle_call_tool_with cm fm n arguments w =
     (Ok [text_item ("Error: " +:+ str_exn e)],
      World (log w' ++ ["Error calling tool " +:+ n +:+ ": " +:+ str_exn e])
            (calls w'))) ∧
  (n ∉ name <$> weather_tools →
     call_tool_body cm fm n arguments w =
     (Exc (ValueError ("Unknown tool: " +:+ n)), w)) ∧
  (n ∈ name <$> weather_tools → arguments !! "location" = None →
     call_tool_body cm fm n arguments w = (Exc (KeyError "location"), w)) ∧
  (∀ location e w',
     arguments !! "location" = Some location →
     (n = "get_current_weather" ∧
      cm location (dict_get arguments "units" (VStr "metric"))
         (World (log w) (calls w ++ [n])) = (Exc e, w')) ∨
     (n = "get_weather_forecast" ∧
      fm location (dict_get arguments "days" (VInt 3))
         (dict_get arguments "units" (VStr "metric"))
         (World (log w) (calls w ++ [n])) = (Exc e, w')) →
     call_tool_body cm fm n arguments w = (Exc e, w')) ∧
  (∀ location,
     arguments !! "location" = Some location →
     py_is_int (dict_get arguments "days" (VInt 3)) = false →
     handle_call_tool "get_weather_forecast" arguments w =
     (Ok [text_item ("Failed to fetch forecast data: " +:+
                     range_error (dict_get arguments "days" (VInt 3)))],
      World (log w ++ ["Error fetching forecast data: " +:+
                       range_error (dict_get arguments "days" (VInt 3))])
            (calls w ++ ["get_weather_forecast"]))).
Proof.
  split_and!.
  - rewrite handle_call_tool_with_unfold.
    destruct (call_tool_body cm fm n arguments w) as [[items|e] w']; eauto.
  - destruct (call_tool_outcome n arguments w) as (s & l & c & Heq & _).
    unfold call_tool, respond in Heq.
    destruct (handle_call_tool n arguments w) as [[items|e] w'];
      [|discriminate Heq].
    injection Heq as -> ->. eauto.
  - intros e w' Hbody. rewrite handle_call_tool_with_unfold, Hbody. reflexivity.
  - intros Hn. apply not_registered_tool in Hn as [H1 H2].
    by apply call_tool_body_unknown.
  - intros Hn Hloc. apply registered_tool in Hn.
    by apply call_tool_body_no_location.
  - intros location e w' Hloc [[-> Hm] | [-> Hm]].
    + by rewrite (call_tool_body_current _ _ _ _ _ Hloc).
    + by rewrite (call_tool_body_forecast _ _ _ _ _ Hloc).
  - intros location Hloc Hd.
    rewrite (handle_call_tool_forecast _ _ _ Hloc).
    by rewrite (get_weather_forecast_not_int _ _ _ _ Hd).
Qed.

Lemma handle_call_tool_total_witness :
  call_tool_body failing_current get_weather_forecast
    "get_current_weather" paris w0 =
  (Exc refused, World [] ["get_current_weather"]).
Proof.
  refine (proj1 (proj2 (proj2 (proj2 (proj2 (proj2
            (handle_call_tool_total failing_current get_weather_forecast
               "get_current_weather" paris w0))))))
            (VStr "Paris") refused (World [] ["get_current_weather"]) _ _).
  - reflexivity.
  - left. split; reflexivity.
Defined.
